(** * PipelineService (ui/src/app/service/pipeline/pipeline.service.ts)

    A shallow embedding of the Angular service that turns pipeline
    operations into HTTP requests.  TypeScript types are erased at run
    time, so arguments are JavaScript values; the service only ever
    concatenates them into addresses, reads a field of them, tests their
    truthiness, or passes them on as a request body. *)

From Stdlib Require Import String Ascii List ZArith Lia Bool DecimalString.
From Stdlib Require DecimalPos DecimalZ.
Import ListNotations.
Local Open Scope string_scope.

(** ** JavaScript values, as far as the service touches them *)

Module JS.

(** Numbers are the integer-valued ones that identifiers are (within
    the safe range, where ToString is the decimal numeral); objects are
    plain objects, kept as their own properties in insertion order. *)
#[warnings="-register-all"]
Inductive Value : Type :=
| VUndefined
| VNull
| VBool (b : bool)
| VNum (n : Z)
| VStr (s : string)
| VObj (fields : list (string * Value)).

(** What a synchronous call can throw.  Nothing in the service throws on
    purpose; reading a property of [undefined] or [null] is the one way
    the language itself does. *)
Inductive Error : Type :=
| TypeError (reading : string).

Definition Completion (A : Type) : Type := (Error + A)%type.

Definition ret {A} (a : A) : Completion A := inr a.
Definition throw {A} (e : Error) : Completion A := inl e.

Definition bind {A B} (c : Completion A) (k : A -> Completion B) : Completion B :=
  match c with
  | inl e => inl e
  | inr a => k a
  end.

(** ToString: what [+] with a string on the left and a template
    placeholder both apply to their operand.  An object renders as a
    plain object does that keeps the toString it inherits. *)
Definition ToString (v : Value) : string :=
  match v with
  | VUndefined => "undefined"
  | VNull => "null"
  | VBool true => "true"
  | VBool false => "false"
  | VNum n => NilZero.string_of_int (Z.to_int n)
  | VStr s => s
  | VObj _ => "[object Object]"
  end.

(** ToBoolean: the falsy values are undefined, null, false, 0 and the
    empty string. *)
Definition ToBoolean (v : Value) : bool :=
  match v with
  | VUndefined | VNull => false
  | VBool b => b
  | VNum n => negb (n =? 0)%Z
  | VStr s => negb (s =? EmptyString)
  | VObj _ => true
  end.

(** [a || b] *)
Definition or_else (a b : Value) : Value :=
  if ToBoolean a then a else b.

Fixpoint own (fields : list (string * Value)) (p : string) : Value :=
  match fields with
  | [] => VUndefined
  | (k, v) :: rest => if k =? p then v else own rest p
  end.

(** [o.p]: throws on undefined and null, reads an own property of an
    object, and is undefined on the other primitives for the property
    names the service reads. *)
Definition get (o : Value) (p : string) : Completion Value :=
  match o with
  | VUndefined | VNull => throw (TypeError p)
  | VObj fields => ret (own fields p)
  | VBool _ | VNum _ | VStr _ => ret VUndefined
  end.

Definition nullish (v : Value) : bool :=
  match v with
  | VUndefined | VNull => true
  | _ => false
  end.

End JS.

Export JS.

Notation "x <- c ;; k" := (bind c (fun x => k))
  (at level 61, c at next level, right associativity).

(** [s + v] with a string on the left. *)
Definition plus (s : string) (v : Value) : string := s ++ ToString v.
Infix "+'" := plus (at level 50, left associativity).

(** ** The part of Angular's HttpClient the service uses *)

Module Http.

Inductive Method : Type := GET | POST | PUT | DELETE.

(** HttpParams and HttpHeaders are immutable multimaps; [append] returns
    a new one with the value added under its name, names in order of
    first appearance. *)
Definition Multimap : Type := list (string * list string).

Fixpoint append (m : Multimap) (name value : string) : Multimap :=
  match m with
  | [] => [(name, [value])]
  | (k, vs) :: rest =>
      if k =? name then (k, (vs ++ [value])%list) :: rest
      else (k, vs) :: append rest name value
  end.

Fixpoint getAll (m : Multimap) (name : string) : list string :=
  match m with
  | [] => []
  | (k, vs) :: rest => if k =? name then vs else getAll rest name
  end.

Definition has (m : Multimap) (name : string) : bool :=
  match getAll m name with
  | [] => false
  | _ :: _ => true
  end.

Definition HttpParams : Type := Multimap.
Definition HttpHeaders : Type := Multimap.
Definition new_HttpParams : HttpParams := [].
Definition new_HttpHeaders : HttpHeaders := [].

Inductive ResponseType : Type := json | text.

Record Options : Type := mkOptions {
  opt_headers : HttpHeaders;
  opt_params : HttpParams;
  opt_responseType : ResponseType
}.

Definition no_options : Options := mkOptions new_HttpHeaders new_HttpParams json.

(** The request descriptor.  GET and DELETE carry no body. *)
Record Request : Type := mkRequest {
  method : Method;
  url : string;
  body : option Value;
  headers : HttpHeaders;
  params : HttpParams;
  responseType : ResponseType
}.

(** A cold observable of one HTTP call: the request it sends when it is
    subscribed to, and what it does to the decoded body before emitting. *)
Record Observable : Type := mkObservable {
  request : Request;
  project : Value -> Value
}.

Definition send (m : Method) (u : string) (b : option Value) (o : Options) : Observable :=
  mkObservable
    (mkRequest m u b (opt_headers o) (opt_params o) (opt_responseType o))
    (fun v => v).

Definition http_get (u : string) (o : Options) : Observable := send GET u None o.
Definition http_delete (u : string) (o : Options) : Observable := send DELETE u None o.
Definition http_post (u : string) (b : Value) (o : Options) : Observable := send POST u (Some b) o.
Definition http_put (u : string) (b : Value) (o : Options) : Observable := send PUT u (Some b) o.

(** [obs.pipe(map(f))] *)
Definition pipe_map (obs : Observable) (f : Value -> Value) : Observable :=
  mkObservable (request obs) (fun v => f (project obs v)).

(** Failures that reach the subscriber instead of a value. *)
Inductive Failure : Type :=
| ServerError (status : Z) (raw : string)
| ParseError (raw : string).

Section Decode.

(** JSON.parse, left abstract: [None] when the text is not JSON. *)
Variable JSON_parse : string -> option Value.

(** A success response is decoded by its status and the response type
    asked for.  A 204 No Content response has its body left unread and
    gives null whatever was asked for; otherwise text is handed over as
    it is and JSON is parsed, with an empty body read as null. *)
Definition decode (rt : ResponseType) (status : Z) (raw : string) : Failure + Value :=
  if (status =? 204)%Z then inr VNull
  else
    match rt with
    | text => inr (VStr raw)
    | json =>
        if raw =? EmptyString then inr VNull
        else match JSON_parse raw with
             | Some v => inr v
             | None => inl (ParseError raw)
             end
    end.

Definition ok (status : Z) : bool := ((200 <=? status) && (status <? 300))%Z.

(** What a subscriber gets once the server has answered. *)
Definition receive (obs : Observable) (status : Z) (raw : string) : Failure + Value :=
  if ok status then
    match decode (responseType (request obs)) status raw with
    | inl f => inl f
    | inr v => inr (project obs v)
    end
  else inl (ServerError status raw).

End Decode.

End Http.

Export Http.

(** String literals stand for string values. *)
Coercion VStr : string >-> Value.

(** ** The model classes the service reads *)

Module ParameterModel.

(** Modelled from the spec: the static method [Parameter.format] of
    model/parameter.model.ts, which is not part of the sources at hand.
    The spec calls its result the normalized parameter representation and
    fixes one thing about it: its identity field [name] is the
    parameter's current (new) name.  The other own properties are carried
    over as they are. *)
Definition format (param : Value) : Completion Value :=
  name <- get param "name" ;;
  ret (VObj (("name", name) ::
             match param with
             | VObj fields => filter (fun kv => negb (fst kv =? "name")) fields
             | _ => []
             end)).

End ParameterModel.

(** ** The service *)

Module PipelineService.

Section Service.

(** [Parameter.format], the one call that leaves this file. *)
Variable Parameter_format : Value -> Completion Value.

Definition getPipelines (key : Value) : Observable :=
  http_get ("/project/" +' key +' "/pipeline") no_options.

Definition getPipeline (key pipName : Value) : Observable :=
  let params := new_HttpParams in
  let params := append params "withApplications" "true" in
  let params := append params "withWorkflows" "true" in
  let params := append params "withEnvironments" "true" in
  http_get ("/project/" +' key +' "/pipeline/" +' pipName)
    {| opt_headers := new_HttpHeaders; opt_params := params; opt_responseType := json |}.

Definition updatePipeline (key oldName pipeline : Value) : Observable :=
  http_put ("/project/" +' key +' "/pipeline/" +' oldName) pipeline no_options.

(** [force] is declared and never read. *)
Definition importPipeline (key pipName pipelineCode force : Value) : Observable :=
  let headers := new_HttpHeaders in
  let headers := append headers "Content-Type" "application/x-yaml" in
  let params := new_HttpParams in
  let params := append params "format" "yaml" in
  if negb (ToBoolean pipName) then
    http_post ("/project/" +' key +' "/import/pipeline") pipelineCode
      {| opt_headers := headers; opt_params := params; opt_responseType := json |}
  else
    http_put ("/project/" +' key +' "/import/pipeline/" +' pipName) pipelineCode
      {| opt_headers := headers; opt_params := params; opt_responseType := json |}.

Definition rollbackPipeline (key pipName auditId : Value) : Observable :=
  http_post ("/project/" +' key +' "/pipeline/" +' pipName +' "/rollback/" +' auditId)
    (VObj []) no_options.

Definition deletePipeline (key pipName : Value) : Observable :=
  pipe_map (http_delete ("/project/" +' key +' "/pipeline/" +' pipName) no_options)
    (fun _ => VBool true).

Definition createPipeline (key pipeline : Value) : Observable :=
  http_post ("/project/" +' key +' "/pipeline") pipeline no_options.

Definition getApplications (key pipName : Value) : Observable :=
  http_get ("/project/" +' key +' "/pipeline/" +' pipName +' "/application") no_options.

Definition insertStage (key pipName stage : Value) : Observable :=
  http_post ("/project/" +' key +' "/pipeline/" +' pipName +' "/stage") stage no_options.

Definition updateStage (key pipName stage : Value) : Completion Observable :=
  id <- get stage "id" ;;
  ret (http_put ("/project/" +' key +' "/pipeline/" +' pipName +' "/stage/" +' id)
         stage no_options).

Definition deleteStage (key pipName stage : Value) : Completion Observable :=
  id <- get stage "id" ;;
  ret (http_delete ("/project/" +' key +' "/pipeline/" +' pipName +' "/stage/" +' id)
         no_options).

Definition addJob (key pipName stageID job : Value) : Observable :=
  http_post ("/project/" +' key +' "/pipeline/" +' pipName +' "/stage/" +' stageID +' "/job")
    job no_options.

Definition updateJob (key pipName stageID job : Value) : Completion Observable :=
  pipeline_action_id <- get job "pipeline_action_id" ;;
  let url := "/project/" +' key +' "/pipeline/" +' pipName +' "/stage/" +' stageID
             +' "/job/" +' pipeline_action_id in
  ret (http_put url job no_options).

Definition removeJob (key pipName stageID job : Value) : Completion Observable :=
  pipeline_action_id <- get job "pipeline_action_id" ;;
  let url := "/project/" +' key +' "/pipeline/" +' pipName +' "/stage/" +' stageID
             +' "/job/" +' pipeline_action_id in
  ret (http_delete url no_options).

Definition addParameter (key pipName param : Value) : Completion Observable :=
  name <- get param "name" ;;
  ret (http_post ("/project/" +' key +' "/pipeline/" +' pipName +' "/parameter/" +' name)
         param no_options).

(** [param.previousName || param.name] reads [name] only when
    [previousName] is falsy; the address is built before the body. *)
Definition updateParameter (key pipName param : Value) : Completion Observable :=
  previousName <- get param "previousName" ;;
  target <- (if ToBoolean previousName then ret previousName else get param "name") ;;
  formatted <- Parameter_format param ;;
  ret (http_put ("/project/" +' key +' "/pipeline/" +' pipName +' "/parameter/" +' target)
         formatted no_options).

Definition removeParameter (key pipName param : Value) : Completion Observable :=
  name <- get param "name" ;;
  ret (http_delete ("/project/" +' key +' "/pipeline/" +' pipName +' "/parameter/" +' name)
         no_options).

Definition moveStage (key pipName stage : Value) : Observable :=
  http_post ("/project/" +' key +' "/pipeline/" +' pipName +' "/stage/move") stage no_options.

Definition getPipelineExport (key pipName : Value) : Observable :=
  let params := new_HttpParams in
  let params := append params "format" "yaml" in
  let params := append params "withPermissions" "true" in
  http_get ("/project/" +' key +' "/export/pipeline/" +' pipName)
    {| opt_headers := new_HttpHeaders; opt_params := params; opt_responseType := text |}.

Definition previewPipelineImport (key pipImportCode : Value) : Observable :=
  let params := new_HttpParams in
  let params := append params "format" "yaml" in
  let headers := new_HttpHeaders in
  let headers := append headers "Content-Type" "application/x-yaml" in
  http_post ("/project/" +' key +' "/preview/pipeline") pipImportCode
    {| opt_headers := headers; opt_params := params; opt_responseType := json |}.

(** One call of a method of the service, with its arguments. *)
Inductive Invocation : Type :=
| GetPipelines (key : Value)
| GetPipeline (key pipName : Value)
| UpdatePipeline (key oldName pipeline : Value)
| ImportPipeline (key pipName pipelineCode force : Value)
| RollbackPipeline (key pipName auditId : Value)
| DeletePipeline (key pipName : Value)
| CreatePipeline (key pipeline : Value)
| GetApplications (key pipName : Value)
| InsertStage (key pipName stage : Value)
| UpdateStage (key pipName stage : Value)
| DeleteStage (key pipName stage : Value)
| AddJob (key pipName stageID job : Value)
| UpdateJob (key pipName stageID job : Value)
| RemoveJob (key pipName stageID job : Value)
| AddParameter (key pipName param : Value)
| UpdateParameter (key pipName param : Value)
| RemoveParameter (key pipName param : Value)
| MoveStage (key pipName stage : Value)
| GetPipelineExport (key pipName : Value)
| PreviewPipelineImport (key pipImportCode : Value).

Definition invoke (i : Invocation) : Completion Observable :=
  match i with
  | GetPipelines key => ret (getPipelines key)
  | GetPipeline key pipName => ret (getPipeline key pipName)
  | UpdatePipeline key oldName pipeline => ret (updatePipeline key oldName pipeline)
  | ImportPipeline key pipName pipelineCode force =>
      ret (importPipeline key pipName pipelineCode force)
  | RollbackPipeline key pipName auditId => ret (rollbackPipeline key pipName auditId)
  | DeletePipeline key pipName => ret (deletePipeline key pipName)
  | CreatePipeline key pipeline => ret (createPipeline key pipeline)
  | GetApplications key pipName => ret (getApplications key pipName)
  | InsertStage key pipName stage => ret (insertStage key pipName stage)
  | UpdateStage key pipName stage => updateStage key pipName stage
  | DeleteStage key pipName stage => deleteStage key pipName stage
  | AddJob key pipName stageID job => ret (addJob key pipName stageID job)
  | UpdateJob key pipName stageID job => updateJob key pipName stageID job
  | RemoveJob key pipName stageID job => removeJob key pipName stageID job
  | AddParameter key pipName param => addParameter key pipName param
  | UpdateParameter key pipName param => updateParameter key pipName param
  | RemoveParameter key pipName param => removeParameter key pipName param
  | MoveStage key pipName stage => ret (moveStage key pipName stage)
  | GetPipelineExport key pipName => ret (getPipelineExport key pipName)
  | PreviewPipelineImport key pipImportCode => ret (previewPipelineImport key pipImportCode)
  end.

End Service.

End PipelineService.

Import PipelineService.

(** ** Vocabulary of the properties *)

(** The methods whose request body is the pipeline's source text, with
    that text. *)
Definition source_text (i : Invocation) : option Value :=
  match i with
  | ImportPipeline _ _ pipelineCode _ => Some pipelineCode
  | PreviewPipelineImport _ pipImportCode => Some pipImportCode
  | _ => None
  end.

(** The stage, job or parameter object a method reads an identifier
    from, for the methods that read one. *)
Definition object_read (i : Invocation) : option Value :=
  match i with
  | UpdateStage _ _ stage | DeleteStage _ _ stage => Some stage
  | UpdateJob _ _ _ job | RemoveJob _ _ _ job => Some job
  | AddParameter _ _ param | UpdateParameter _ _ param
  | RemoveParameter _ _ param => Some param
  | _ => None
  end.

(** A call is rejected when it throws instead of returning its observable. *)
Definition rejected {A} (c : Completion A) : bool :=
  match c with
  | inl _ => true
  | inr _ => false
  end.

(** A malformed address component: an empty name, a negative or an
    undefined identifier. *)
Definition malformed (v : Value) : bool :=
  match v with
  | VUndefined | VNull => true
  | VStr s => s =? EmptyString
  | VNum n => (n <? 0)%Z
  | _ => false
  end.

(** The primitive values whose rendering this file has exactly as the
    language does: everything but objects, with integers below 10^21 in
    magnitude, which print as decimal numerals. *)
Definition primitive (v : Value) : bool :=
  match v with
  | VObj _ => false
  | VNum n => (Z.abs n <? 10 ^ 21)%Z
  | _ => true
  end.

(** [o.p] where it can be read, undefined where reading throws. *)
Definition field (o : Value) (p : string) : Value :=
  match get o p with
  | inr v => v
  | inl _ => VUndefined
  end.

(** The values a call writes into its address: the key, the names and
    the identifiers, passed as arguments or read from the stage, job or
    parameter object. *)
Definition components (i : Invocation) : list Value :=
  match i with
  | GetPipelines key | CreatePipeline key _ | PreviewPipelineImport key _ => [key]
  | GetPipeline key pipName | UpdatePipeline key pipName _
  | ImportPipeline key pipName _ _ | DeletePipeline key pipName
  | GetApplications key pipName | InsertStage key pipName _
  | MoveStage key pipName _ | GetPipelineExport key pipName => [key; pipName]
  | RollbackPipeline key pipName auditId => [key; pipName; auditId]
  | UpdateStage key pipName stage | DeleteStage key pipName stage =>
      [key; pipName; field stage "id"]
  | AddJob key pipName stageID _ => [key; pipName; stageID]
  | UpdateJob key pipName stageID job | RemoveJob key pipName stageID job =>
      [key; pipName; stageID; field job "pipeline_action_id"]
  | AddParameter key pipName param | RemoveParameter key pipName param =>
      [key; pipName; field param "name"]
  | UpdateParameter key pipName param =>
      [key; pipName; field param "previousName"; field param "name"]
  end.

(** The address of each call after the operation table of the
    specification: the fixed pieces of the table, with every component
    put in as [ToString] renders it, none checked and none escaped. *)
Definition address_table (i : Invocation) : string :=
  let project key := "/project/" ++ ToString key in
  let pipeline key pipName := project key ++ "/pipeline/" ++ ToString pipName in
  match i with
  | GetPipelines key | CreatePipeline key _ => project key ++ "/pipeline"
  | GetPipeline key pipName | UpdatePipeline key pipName _
  | DeletePipeline key pipName => pipeline key pipName
  | ImportPipeline key pipName _ _ =>
      if ToBoolean pipName
      then project key ++ "/import/pipeline/" ++ ToString pipName
      else project key ++ "/import/pipeline"
  | PreviewPipelineImport key _ => project key ++ "/preview/pipeline"
  | GetPipelineExport key pipName =>
      project key ++ "/export/pipeline/" ++ ToString pipName
  | RollbackPipeline key pipName auditId =>
      pipeline key pipName ++ "/rollback/" ++ ToString auditId
  | GetApplications key pipName => pipeline key pipName ++ "/application"
  | InsertStage key pipName _ => pipeline key pipName ++ "/stage"
  | MoveStage key pipName _ => pipeline key pipName ++ "/stage/move"
  | UpdateStage key pipName stage | DeleteStage key pipName stage =>
      pipeline key pipName ++ "/stage/" ++ ToString (field stage "id")
  | AddJob key pipName stageID _ =>
      pipeline key pipName ++ "/stage/" ++ ToString stageID ++ "/job"
  | UpdateJob key pipName stageID job | RemoveJob key pipName stageID job =>
      pipeline key pipName ++ "/stage/" ++ ToString stageID ++ "/job/"
        ++ ToString (field job "pipeline_action_id")
  | AddParameter key pipName param | RemoveParameter key pipName param =>
      pipeline key pipName ++ "/parameter/" ++ ToString (field param "name")
  | UpdateParameter key pipName param =>
      pipeline key pipName ++ "/parameter/"
        ++ ToString (or_else (field param "previousName") (field param "name"))
  end.

(** A stand-in for JSON.parse in the examples: it reads the text of the
    empty object and nothing else. *)
Definition parse_empty_object (raw : string) : option Value :=
  if raw =? "{}" then Some (VObj []) else None.

(** The project key, first argument of every method. *)
Definition project_key (i : Invocation) : Value :=
  match i with
  | GetPipelines key | GetPipeline key _ | UpdatePipeline key _ _
  | ImportPipeline key _ _ _ | RollbackPipeline key _ _ | DeletePipeline key _
  | CreatePipeline key _ | GetApplications key _ | InsertStage key _ _
  | UpdateStage key _ _ | DeleteStage key _ _ | AddJob key _ _ _
  | UpdateJob key _ _ _ | RemoveJob key _ _ _ | AddParameter key _ _
  | UpdateParameter key _ _ | RemoveParameter key _ _ | MoveStage key _ _
  | GetPipelineExport key _ | PreviewPipelineImport key _ => key
  end.

(** The methods that pass query parameters to the client. *)
Definition sends_query (i : Invocation) : bool :=
  match i with
  | GetPipeline _ _ | ImportPipeline _ _ _ _ | GetPipelineExport _ _
  | PreviewPipelineImport _ _ => true
  | _ => false
  end.

(** A string without the path separator. *)
Fixpoint no_slash (s : string) : bool :=
  match s with
  | EmptyString => true
  | String c rest => negb (Ascii.eqb c "/") && no_slash rest
  end.

(** ** Strings *)

Lemma append_assoc (a b c : string) : (a ++ b) ++ c = a ++ (b ++ c).
Proof.
  induction a as [| ch a IH]; simpl.
  - reflexivity.
  - now rewrite IH.
Qed.

Lemma length_append (a b : string) :
  String.length (a ++ b) = String.length a + String.length b.
Proof.
  induction a as [| ch a IH]; simpl; [reflexivity | now rewrite IH].
Qed.

Lemma append_longer (a : string) (ch : ascii) (b : string) :
  a ++ String ch b <> a.
Proof.
  intros H. apply (f_equal String.length) in H.
  rewrite length_append in H. simpl in H. lia.
Qed.

Lemma plus_string (s t : string) : s +' VStr t = s ++ t.
Proof. reflexivity. Qed.

Lemma plus_spec (s : string) (v : Value) : s +' v = s ++ ToString v.
Proof. reflexivity. Qed.

Lemma ToBoolean_string (s : string) : ToBoolean s = true <-> s <> EmptyString.
Proof.
  simpl. destruct (String.eqb_spec s EmptyString); simpl; split; congruence.
Qed.

(** Addresses are compared with their pieces grouped to the right. *)
Ltac address :=
  simpl; try unfold plus; simpl ToString; repeat rewrite append_assoc; simpl;
  try reflexivity.

(** From a call that returned its observable to the field reads that
    succeeded and the client call that was made. *)
Ltac returned H :=
  unfold updateStage, deleteStage, updateJob, removeJob, addParameter,
    updateParameter, removeParameter in H;
  repeat match type of H with
    | bind ?c _ = inr _ =>
        let v := fresh "v" in
        let E := fresh "E" in
        destruct c as [? | v] eqn:E; simpl bind in H; [discriminate H |]
    end;
  unfold ret in H; injection H as <-.

(** ** get pipeline *)

(** C8. Whatever the project key and the pipeline name, the get-pipeline
    request is a GET on /project/{key}/pipeline/{pipName} whose query
    carries exactly withApplications=true, withWorkflows=true and
    withEnvironments=true. *)
Theorem getPipeline_with_flags :
  forall key pipName : Value,
    let r := request (getPipeline key pipName) in
    method r = GET
    /\ url r = "/project/" ++ ToString key ++ "/pipeline/" ++ ToString pipName
    /\ params r = [("withApplications", ["true"]); ("withWorkflows", ["true"]);
                   ("withEnvironments", ["true"])]
    /\ getAll (params r) "withApplications" = ["true"]
    /\ getAll (params r) "withWorkflows" = ["true"]
    /\ getAll (params r) "withEnvironments" = ["true"].
Proof.
  intros key pipName r. subst r. unfold getPipeline. simpl.
  repeat split. address.
Qed.

(** ** import pipeline *)

Lemma importPipeline_falsy (key pipName pipelineCode force : Value) :
  ToBoolean pipName = false ->
  importPipeline key pipName pipelineCode force =
  http_post ("/project/" +' key +' "/import/pipeline") pipelineCode
    {| opt_headers := [("Content-Type", ["application/x-yaml"])];
       opt_params := [("format", ["yaml"])];
       opt_responseType := json |}.
Proof. intros H. unfold importPipeline. now rewrite H. Qed.

Lemma importPipeline_truthy (key pipName pipelineCode force : Value) :
  ToBoolean pipName = true ->
  importPipeline key pipName pipelineCode force =
  http_put ("/project/" +' key +' "/import/pipeline/" +' pipName) pipelineCode
    {| opt_headers := [("Content-Type", ["application/x-yaml"])];
       opt_params := [("format", ["yaml"])];
       opt_responseType := json |}.
Proof. intros H. unfold importPipeline. now rewrite H. Qed.

(** C1. For every project key and source text: with an empty or absent
    target name importPipeline POSTs to /project/{key}/import/pipeline;
    with a non-empty name it PUTs to /project/{key}/import/pipeline/{name};
    and for any name at all the verb is POST exactly when the address is
    the collection address, PUT exactly when it is the named one. *)
Theorem importPipeline_verb_and_address :
  forall (key pipelineCode : string) (force : Value),
    let collection := "/project/" ++ key ++ "/import/pipeline" in
    (forall pipName : Value,
        pipName = VStr EmptyString \/ pipName = VUndefined \/ pipName = VNull ->
        let r := request (importPipeline key pipName pipelineCode force) in
        method r = POST /\ url r = collection)
    /\ (forall name : string,
        name <> EmptyString ->
        let r := request (importPipeline key name pipelineCode force) in
        method r = PUT /\ url r = collection ++ "/" ++ name)
    /\ (forall pipName : Value,
        let r := request (importPipeline key pipName pipelineCode force) in
        (method r = POST <-> url r = collection)
        /\ (method r = PUT <-> url r = collection ++ "/" ++ ToString pipName)).
Proof.
  intros key pipelineCode force collection. subst collection.
  split; [| split].
  - intros pipName H r. subst r.
    rewrite importPipeline_falsy by (destruct H as [-> | [-> | ->]]; reflexivity).
    simpl. split; [reflexivity | address].
  - intros name Hname r. subst r.
    rewrite importPipeline_truthy by now apply ToBoolean_string.
    simpl. split; [reflexivity | address].
  - intros pipName r. subst r.
    destruct (ToBoolean pipName) eqn:Hb.
    + rewrite importPipeline_truthy by assumption.
      unfold http_put, send. cbn [request method url].
      assert (Hurl : "/project/" +' VStr key +' VStr "/import/pipeline/" +' pipName
                     = ("/project/" ++ key ++ "/import/pipeline")
                         ++ "/" ++ ToString pipName) by address.
      rewrite Hurl. generalize ("/project/" ++ key ++ "/import/pipeline"). intros c.
      split; split; try discriminate; try reflexivity.
      intros H. exfalso. exact (append_longer c "/" (ToString pipName) H).
    + rewrite importPipeline_falsy by assumption.
      unfold http_post, send. cbn [request method url].
      assert (Hurl : "/project/" +' VStr key +' VStr "/import/pipeline"
                     = "/project/" ++ key ++ "/import/pipeline") by address.
      rewrite Hurl. generalize ("/project/" ++ key ++ "/import/pipeline"). intros c.
      split; split; try discriminate; try reflexivity.
      intros H. exfalso. symmetry in H.
      exact (append_longer c "/" (ToString pipName) H).
Qed.

(** The name "P" selects the PUT on the named address. *)
Lemma importPipeline_verb_and_address_witness :
  let r := request (importPipeline "PRJ" "P" "kind: pipeline" VUndefined) in
  method r = PUT /\ url r = "/project/PRJ/import/pipeline/P".
Proof.
  apply (proj1 (proj2 (importPipeline_verb_and_address "PRJ" "kind: pipeline" VUndefined))).
  discriminate.
Defined.

(** C10. The request importPipeline builds (method, address, headers,
    query parameters, body) and the observable around it are the same
    whatever is passed as [force]: true, false or nothing. *)
Theorem importPipeline_ignores_force :
  forall key pipName pipelineCode force force' : Value,
    importPipeline key pipName pipelineCode force
    = importPipeline key pipName pipelineCode force'
    /\ request (importPipeline key pipName pipelineCode (VBool true))
       = request (importPipeline key pipName pipelineCode VUndefined)
    /\ request (importPipeline key pipName pipelineCode (VBool false))
       = request (importPipeline key pipName pipelineCode VUndefined).
Proof.
  intros. repeat split.
Qed.

(** ** rollback *)

(** C7. rollbackPipeline issues a POST on
    /project/{key}/pipeline/{pipName}/rollback/{auditId}; the body it
    sends is the empty object literal, which has no property at all, so
    the audit id travels in the address only. *)
Theorem rollbackPipeline_empty_body :
  forall (key pipName : string) (auditId : Z),
    let r := request (rollbackPipeline key pipName (VNum auditId)) in
    method r = POST
    /\ url r = "/project/" ++ key ++ "/pipeline/" ++ pipName ++ "/rollback/"
                 ++ ToString (VNum auditId)
    /\ body r = Some (VObj [])
    /\ (forall p : string, get (VObj []) p = ret VUndefined)
    /\ headers r = [] /\ params r = [].
Proof.
  intros key pipName auditId r. subst r. unfold rollbackPipeline. simpl.
  repeat split. address.
Qed.

Example rollbackPipeline_42 :
  url (request (rollbackPipeline "PRJ" "P" (VNum 42))) = "/project/PRJ/pipeline/P/rollback/42".
Proof. reflexivity. Qed.

(** ** export *)

(** A success response need not give a string: the answer 204 No
    Content gives the subscriber null. *)
Lemma getPipelineExport_no_content :
  ok 204 = true
  /\ receive parse_empty_object (getPipelineExport "PRJ" "P") 204 EmptyString = inr VNull
  /\ ~ (exists s : string,
           receive parse_empty_object (getPipelineExport "PRJ" "P") 204 EmptyString
           = inr (VStr s)).
Proof.
  repeat split. intros [s H]. discriminate H.
Qed.

(** C6, as the code has it.  The export request is a GET on
    /project/{key}/export/pipeline/{pipName} whose query carries
    format=yaml and withPermissions=true and which asks for a text
    response.  A success response that carries a body (any 2xx status
    but 204) is handed to the subscriber as the string of its raw body;
    a 204 gives null; the JSON parser, whatever it would make of the
    body, is never consulted. *)
Theorem getPipelineExport_literal_text :
  forall (JSON_parse : string -> option Value) (key pipName : string)
         (status : Z) (raw : string),
    let obs := getPipelineExport key pipName in
    method (request obs) = GET
    /\ url (request obs) = "/project/" ++ key ++ "/export/pipeline/" ++ pipName
    /\ getAll (params (request obs)) "format" = ["yaml"]
    /\ getAll (params (request obs)) "withPermissions" = ["true"]
    /\ params (request obs) = [("format", ["yaml"]); ("withPermissions", ["true"])]
    /\ responseType (request obs) = text
    /\ receive JSON_parse obs status raw
       = if ok status
         then if (status =? 204)%Z then inr VNull else inr (VStr raw)
         else inl (ServerError status raw).
Proof.
  intros JSON_parse key pipName status raw obs. subst obs.
  unfold getPipelineExport, receive, decode. simpl.
  repeat match goal with |- _ /\ _ => split end; try reflexivity.
  - address.
  - destruct (ok status); [| reflexivity]. now destruct (status =? 204)%Z.
Qed.

(** A body that is the JSON text of an object still arrives as text. *)
Example getPipelineExport_json_looking_body :
  receive parse_empty_object (getPipelineExport "PRJ" "P") 200 "{}" = inr (VStr "{}")
  /\ receive parse_empty_object (getPipeline "PRJ" "P") 200 "{}" = inr (VObj []).
Proof. split; reflexivity. Qed.

(** ** delete *)




(** ** Format negotiation *)

(** C4. Among all the calls that return a request, those whose body is
    the pipeline's source text (importPipeline, previewPipelineImport)
    send that text with the single header Content-Type: application/x-yaml
    and the query parameter format=yaml; every other call sets no header
    at all. *)
Theorem yaml_negotiation :
  forall (Parameter_format : Value -> Completion Value)
         (i : Invocation) (obs : Observable),
    invoke Parameter_format i = inr obs ->
    match source_text i with
    | Some code =>
        body (request obs) = Some code
        /\ headers (request obs) = [("Content-Type", ["application/x-yaml"])]
        /\ getAll (headers (request obs)) "Content-Type" = ["application/x-yaml"]
        /\ getAll (params (request obs)) "format" = ["yaml"]
    | None =>
        headers (request obs) = []
        /\ has (headers (request obs)) "Content-Type" = false
    end.
Proof.
  intros fmt i obs H.
  destruct i; simpl in H; simpl source_text; cbv iota;
    try (injection H as <-; simpl; repeat split; fail).
  - (* importPipeline *)
    injection H as <-. unfold importPipeline.
    destruct (ToBoolean pipName); simpl; repeat split.
  - unfold updateStage in H.
    destruct (get stage "id"); simpl in H; [discriminate |].
    injection H as <-. split; reflexivity.
  - unfold deleteStage in H.
    destruct (get stage "id"); simpl in H; [discriminate |].
    injection H as <-. split; reflexivity.
  - unfold updateJob in H.
    destruct (get job "pipeline_action_id"); simpl in H; [discriminate |].
    injection H as <-. split; reflexivity.
  - unfold removeJob in H.
    destruct (get job "pipeline_action_id"); simpl in H; [discriminate |].
    injection H as <-. split; reflexivity.
  - unfold addParameter in H.
    destruct (get param "name"); simpl in H; [discriminate |].
    injection H as <-. split; reflexivity.
  - unfold updateParameter in H.
    destruct (get param "previousName") as [e | previousName]; simpl in H; [discriminate |].
    destruct (if ToBoolean previousName then ret previousName else get param "name");
      simpl in H; [discriminate |].
    destruct (fmt param); simpl in H; [discriminate |].
    injection H as <-. split; reflexivity.
  - unfold removeParameter in H.
    destruct (get param "name"); simpl in H; [discriminate |].
    injection H as <-. split; reflexivity.
Qed.

(** The preview of a source text. *)
Lemma yaml_negotiation_witness :
  let r := request (previewPipelineImport "PRJ" "kind: pipeline") in
  body r = Some (VStr "kind: pipeline")
  /\ headers r = [("Content-Type", ["application/x-yaml"])]
  /\ getAll (headers r) "Content-Type" = ["application/x-yaml"]
  /\ getAll (params r) "format" = ["yaml"].
Proof.
  exact (yaml_negotiation ParameterModel.format
           (PreviewPipelineImport "PRJ" "kind: pipeline") _ eq_refl).
Defined.

(** ** Addresses of nested entities *)

(** C9. Each address is its parent's address followed by the local
    identifier: a pipeline under its project's pipelines, a stage under
    its pipeline's stages, a job under its stage's jobs, a parameter
    under its pipeline's parameters (under its previous name when an
    update renames it).  In project "PRJ", pipeline "P", updating the job
    whose id is 3 in the stage [stageID] is addressed
    /project/PRJ/pipeline/P/stage/<stageID>/job/3. *)
Theorem nested_address :
  forall (key pipName : string) (stageID : Z) (job actionId : Value),
    get job "pipeline_action_id" = inr actionId ->
    let project := "/project/" ++ key in
    let pipeline := project ++ "/pipeline/" ++ pipName in
    let stage := pipeline ++ "/stage/" ++ ToString (VNum stageID) in
    url (request (getPipelines key)) = project ++ "/pipeline"
    /\ url (request (getPipeline key pipName)) = pipeline
    /\ url (request (insertStage key pipName (VObj [("id", VNum stageID)])))
       = pipeline ++ "/stage"
    /\ updateStage key pipName (VObj [("id", VNum stageID)])
       = inr (http_put stage (VObj [("id", VNum stageID)]) no_options)
    /\ url (request (addJob key pipName (VNum stageID) job)) = stage ++ "/job"
    /\ updateJob key pipName (VNum stageID) job
       = inr (http_put (stage ++ "/job/" ++ ToString actionId) job no_options)
    /\ removeJob key pipName (VNum stageID) job
       = inr (http_delete (stage ++ "/job/" ++ ToString actionId) no_options)
    /\ deleteStage key pipName (VObj [("id", VNum stageID)])
       = inr (http_delete stage no_options)
    /\ (forall (Parameter_format : Value -> Completion Value)
               (param name previousName formatted : Value),
           get param "name" = inr name ->
           get param "previousName" = inr previousName ->
           Parameter_format param = inr formatted ->
           addParameter key pipName param
           = inr (http_post (pipeline ++ "/parameter/" ++ ToString name) param no_options)
           /\ removeParameter key pipName param
              = inr (http_delete (pipeline ++ "/parameter/" ++ ToString name) no_options)
           /\ updateParameter Parameter_format key pipName param
              = inr (http_put
                       (pipeline ++ "/parameter/" ++ ToString (or_else previousName name))
                       formatted no_options))
    /\ (key = "PRJ" -> pipName = "P" -> actionId = VNum 3 ->
        exists obs,
          updateJob key pipName (VNum stageID) job = inr obs
          /\ method (request obs) = PUT
          /\ url (request obs)
             = "/project/PRJ/pipeline/P/stage/" ++ ToString (VNum stageID) ++ "/job/3").
Proof.
  intros key pipName stageID job actionId Hid project pipeline stage.
  subst stage pipeline project.
  unfold updateJob, removeJob, updateStage, deleteStage. rewrite Hid. simpl bind.
  repeat match goal with |- _ /\ _ => split end;
    try match goal with |- ret _ = inr _ => unfold ret; do 2 f_equal end;
    try match goal with |- _ = _ => address end.
  - intros fmt param name previousName formatted Hname Hprev Hfmt.
    unfold addParameter, removeParameter, updateParameter, or_else.
    rewrite Hname, Hprev. simpl bind.
    destruct (ToBoolean previousName); try rewrite Hname; simpl bind;
      rewrite Hfmt; simpl bind; unfold ret;
      repeat match goal with |- _ /\ _ => split end; do 2 f_equal; address.
  - intros -> -> ->. eexists. split; [reflexivity |]. split; [reflexivity |].
    simpl url. address.
Qed.

(** Stage 12 of pipeline "P" in project "PRJ", job 3; and the parameter
    "FOO" of that pipeline. *)
Lemma nested_address_witness :
  (exists obs,
      updateJob "PRJ" "P" (VNum 12) (VObj [("pipeline_action_id", VNum 3)]) = inr obs
      /\ method (request obs) = PUT
      /\ url (request obs) = "/project/PRJ/pipeline/P/stage/12/job/3")
  /\ (addParameter "PRJ" "P" (VObj [("name", VStr "FOO")])
      = inr (http_post "/project/PRJ/pipeline/P/parameter/FOO"
               (VObj [("name", VStr "FOO")]) no_options)
      /\ removeParameter "PRJ" "P" (VObj [("name", VStr "FOO")])
         = inr (http_delete "/project/PRJ/pipeline/P/parameter/FOO" no_options)
      /\ updateParameter ParameterModel.format "PRJ" "P" (VObj [("name", VStr "FOO")])
         = inr (http_put "/project/PRJ/pipeline/P/parameter/FOO"
                  (VObj [("name", VStr "FOO")]) no_options)).
Proof.
  pose proof (nested_address "PRJ" "P" 12 (VObj [("pipeline_action_id", VNum 3)])
                (VNum 3) eq_refl)
    as [_ [_ [_ [_ [_ [_ [_ [_ [Hparam Hjob]]]]]]]]].
  split.
  - exact (Hjob eq_refl eq_refl eq_refl).
  - exact (Hparam ParameterModel.format (VObj [("name", VStr "FOO")]) (VStr "FOO")
             VUndefined _ eq_refl eq_refl eq_refl).
Defined.

(** ** Renaming a parameter *)

(** Whatever [Parameter.format] does, the address is chosen first and
    from the parameter alone. *)
Lemma updateParameter_address (Parameter_format : Value -> Completion Value)
      (key pipName : string) (fields : list (string * Value)) :
  updateParameter Parameter_format key pipName (VObj fields)
  = (formatted <- Parameter_format (VObj fields) ;;
     ret (http_put
            ("/project/" ++ key ++ "/pipeline/" ++ pipName ++ "/parameter/"
               ++ ToString (or_else (own fields "previousName") (own fields "name")))
            formatted no_options)).
Proof.
  unfold updateParameter, or_else. simpl get. simpl bind at 1.
  destruct (ToBoolean (own fields "previousName")); simpl bind at 1;
    destruct (Parameter_format (VObj fields)); simpl; try reflexivity;
    unfold ret; do 2 f_equal; address.
Qed.

(** C2. For every parameter object, updateParameter PUTs on
    /project/{key}/pipeline/{pipName}/parameter/{previousName} when
    previousName is set (truthy: a non-empty string), and on
    .../parameter/{name} when it is not (absent, or the empty string);
    the body is the formatted parameter, whose [name] is the parameter's
    current name. *)
Theorem updateParameter_rename :
  forall (key pipName : string) (fields : list (string * Value)),
    let param := VObj fields in
    let previousName := own fields "previousName" in
    let name := own fields "name" in
    let parameters := "/project/" ++ key ++ "/pipeline/" ++ pipName ++ "/parameter/" in
    exists formatted,
      ParameterModel.format param = inr formatted
      /\ get formatted "name" = inr name
      /\ updateParameter ParameterModel.format key pipName param
         = inr (http_put
                  (parameters
                     ++ ToString (if ToBoolean previousName then previousName else name))
                  formatted no_options)
      /\ (forall old : string,
             previousName = VStr old -> old <> EmptyString ->
             updateParameter ParameterModel.format key pipName param
             = inr (http_put (parameters ++ old) formatted no_options))
      /\ (previousName = VUndefined ->
          updateParameter ParameterModel.format key pipName param
          = inr (http_put (parameters ++ ToString name) formatted no_options)).
Proof.
  intros key pipName fields param previousName name parameters.
  subst param previousName name parameters.
  eexists. split; [reflexivity |]. split; [reflexivity |].
  assert (H : updateParameter ParameterModel.format key pipName (VObj fields)
              = inr (http_put
                       (("/project/" ++ key ++ "/pipeline/" ++ pipName ++ "/parameter/")
                          ++ ToString (or_else (own fields "previousName")
                                               (own fields "name")))
                       (VObj (("name", own fields "name")
                                :: filter (fun kv => negb (fst kv =? "name")) fields))
                       no_options)).
  { rewrite updateParameter_address. unfold ParameterModel.format. simpl get.
    simpl bind. unfold ret. do 2 f_equal. now repeat rewrite append_assoc. }
  unfold or_else in H.
  split; [exact H |]. split.
  - intros old Hold Hne. rewrite Hold in H.
    apply ToBoolean_string in Hne. rewrite Hne in H. exact H.
  - intros Hun. rewrite Hun in H. exact H.
Qed.

(** Renaming "old" to "new": the address names "old", the body "new". *)
Lemma updateParameter_rename_witness :
  exists formatted,
    get formatted "name" = inr (VStr "new")
    /\ updateParameter ParameterModel.format "PRJ" "P"
         (VObj [("name", VStr "new"); ("previousName", VStr "old")])
       = inr (http_put "/project/PRJ/pipeline/P/parameter/old" formatted no_options).
Proof.
  destruct (updateParameter_rename "PRJ" "P"
              [("name", VStr "new"); ("previousName", VStr "old")])
    as [formatted [_ [Hname [_ [Hold _]]]]].
  exists formatted. split.
  - exact Hname.
  - apply (Hold "old"); [reflexivity | discriminate].
Defined.

Example updateParameter_without_rename :
  updateParameter ParameterModel.format "PRJ" "P" (VObj [("name", VStr "x")])
  = inr (http_put "/project/PRJ/pipeline/P/parameter/x" (VObj [("name", VStr "x")])
           no_options).
Proof. reflexivity. Qed.

(** ** Malformed address components *)

(** The statement that a malformed component is rejected fails: with the
    stage id undefined, updateJob returns the PUT request on an address
    that spells "undefined"; with an empty pipeline name and the stage id
    -1, so does removeJob on .../pipeline//stage/-1/job/3. *)
Lemma malformed_component_accepted :
  malformed VUndefined = true
  /\ malformed (VStr EmptyString) = true
  /\ malformed (VNum (-1)) = true
  /\ rejected (updateJob "PRJ" "P" VUndefined (VObj [("pipeline_action_id", VNum 3)]))
     = false
  /\ updateJob "PRJ" "P" VUndefined (VObj [("pipeline_action_id", VNum 3)])
     = inr (http_put "/project/PRJ/pipeline/P/stage/undefined/job/3"
              (VObj [("pipeline_action_id", VNum 3)]) no_options)
  /\ removeJob "PRJ" EmptyString (VNum (-1)) (VObj [("pipeline_action_id", VNum 3)])
     = inr (http_delete "/project/PRJ/pipeline//stage/-1/job/3" no_options).
Proof. repeat split. Qed.

Lemma get_nullish (o : Value) (p : string) :
  nullish o = true -> get o p = inl (TypeError p).
Proof. destruct o; simpl; intros H; try discriminate H; reflexivity. Qed.

Lemma get_field (o : Value) (p : string) :
  nullish o = false -> get o p = inr (field o p).
Proof. destruct o; simpl; intros H; try discriminate H; reflexivity. Qed.

(** C3, as the code has it.  No method validates an address component,
    and there is no invalid-argument failure.  For every call whose
    address components are primitives (strings, integers, booleans, null,
    undefined: empty names, negative and undefined identifiers included):
    the call throws exactly when the stage, job or parameter object it
    reads an identifier from is itself null or undefined, or when it is
    updateParameter and [Parameter.format] throws; what it throws is the
    language's TypeError in the first case and the formatter's error in
    the second; in every other case it returns its request, on the
    address of the operation table with each component as it renders. *)
Theorem no_local_validation :
  forall (Parameter_format : Value -> Completion Value) (i : Invocation),
    forallb primitive (components i) = true ->
    (rejected (invoke Parameter_format i) = true
     <-> (exists o, object_read i = Some o /\ nullish o = true)
         \/ (exists key pipName param,
                i = UpdateParameter key pipName param
                /\ nullish param = false
                /\ rejected (Parameter_format param) = true))
    /\ (forall e,
           invoke Parameter_format i = inl e ->
           (exists o p, object_read i = Some o /\ nullish o = true /\ e = TypeError p)
           \/ (exists key pipName param,
                  i = UpdateParameter key pipName param
                  /\ nullish param = false
                  /\ Parameter_format param = inl e))
    /\ (forall obs,
           invoke Parameter_format i = inr obs ->
           url (request obs) = address_table i).
Proof.
  intros fmt i _.
  assert (Hno : forall (o o' : Value) (P : Prop),
             nullish o = false -> Some o = Some o' /\ nullish o' = true -> P)
    by (intros o o' P Hn [Ho Ht]; injection Ho as <-; congruence).
  destruct i; simpl invoke; simpl object_read;
    try match goal with
      | |- context [get ?o ?p] => idtac
      | |- _ =>
          (* the methods that read no field always return *)
          split; [| split];
          [ split; [ discriminate
                   | intros [[o [Ho _]] | [k [n [q [Hi _]]]]]; discriminate ]
          | intros e H; discriminate H
          | intros obs H; injection H as <-; unfold address_table;
            try match goal with
              | |- context [importPipeline _ ?n] =>
                  unfold importPipeline; destruct (ToBoolean n)
              end;
            address ]
      end.
  all: unfold updateStage, deleteStage, updateJob, removeJob, addParameter,
         updateParameter, removeParameter, address_table.
  all: match goal with
       | |- context [get ?o _] => destruct (nullish o) eqn:Hn
       end.
  (* the object is null or undefined: reading it throws *)
  all: try (rewrite (get_nullish _ _ Hn); simpl bind;
            split; [| split];
            [ split; [ intros _; left; eexists; now split | reflexivity ]
            | intros e H; injection H as <-; left; do 2 eexists; repeat split;
              exact Hn
            | intros obs H; discriminate H ]).
  (* the object can be read: only the formatter can still throw *)
  all: rewrite ?(get_field _ _ Hn); simpl bind.
  all: try (split; [| split];
            [ split; [ discriminate
                     | intros [[o Ho] | [k [n [q [Hi _]]]]];
                       [ exact (Hno _ _ _ Hn Ho) | discriminate Hi ] ]
            | intros e H; discriminate H
            | intros obs H; injection H as <-; address ]).
  (* updateParameter *)
  unfold or_else.
  destruct (ToBoolean (field param "previousName"));
    rewrite ?(get_field _ _ Hn); simpl bind;
    destruct (fmt param) as [e' | formatted] eqn:Hfmt; simpl bind;
    (split; [| split]);
    try (split; [ discriminate
                | intros [[o Ho] | [k [n [q [Hi [_ Hr]]]]]];
                  [ exact (Hno _ _ _ Hn Ho)
                  | injection Hi as <- <- <-; rewrite Hfmt in Hr; discriminate Hr ] ]);
    try (split; [ intros _; right; do 3 eexists; repeat split;
                  [ exact Hn | rewrite Hfmt; reflexivity ]
                | reflexivity ]);
    try (intros e H; discriminate H);
    try (intros e H; injection H as <-; right; do 3 eexists; repeat split;
         [ exact Hn | exact Hfmt ]);
    try (intros obs H; discriminate H);
    try (intros obs H; injection H as <-; address).
Qed.

(** A job update with no stage id: nothing is thrown and the address
    spells "undefined". *)
Lemma no_local_validation_witness :
  let job := VObj [("pipeline_action_id", VNum 3)] in
  let i := UpdateJob "PRJ" "P" VUndefined job in
  forallb primitive (components i) = true
  /\ rejected (invoke ParameterModel.format i) = false
  /\ url (request (http_put "/project/PRJ/pipeline/P/stage/undefined/job/3" job
                     no_options))
     = address_table i.
Proof.
  intros job i.
  split; [reflexivity |]. split; [reflexivity |].
  exact (proj2 (proj2 (no_local_validation ParameterModel.format i eq_refl)) _ eq_refl).
Defined.

(** * Further properties of the service *)

(** ** More on strings and numerals *)

Lemma append_inv_head (a b c : string) : a ++ b = a ++ c -> b = c.
Proof.
  induction a as [| ch a IH]; simpl; intros H.
  - exact H.
  - injection H as H. now apply IH.
Qed.

(** Two strings cut at their first slash agree piece by piece. *)
Lemma split_at_slash (a b r r' : string) :
  no_slash a = true -> no_slash b = true ->
  a ++ String "/" r = b ++ String "/" r' -> a = b /\ r = r'.
Proof.
  revert b. induction a as [| ch a IH]; intros [| ch' b] Ha Hb H; simpl in *.
  - injection H as H. now split.
  - injection H as Hc H. subst ch'. discriminate Hb.
  - injection H as Hc H. subst ch. discriminate Ha.
  - injection H as Hc H. subst ch'.
    apply andb_prop in Ha as [_ Ha]. apply andb_prop in Hb as [_ Hb].
    destruct (IH b Ha Hb H) as [-> ->]. now split.
Qed.

Lemma to_int_not_nil (n : Z) :
  Z.to_int n <> Decimal.Pos Decimal.Nil /\ Z.to_int n <> Decimal.Neg Decimal.Nil.
Proof.
  destruct n as [| p | p]; simpl; split; try discriminate;
    intros H; injection H as H; now apply DecimalPos.Unsigned.to_uint_nonnil in H.
Qed.

(** The numeral of an integer can be read back. *)
Lemma numeral_read_back (n : Z) :
  NilZero.int_of_string (ToString (VNum n)) = Some (Z.to_int n).
Proof.
  destruct (to_int_not_nil n) as [Hp Hn]. simpl ToString. now apply NilZero.isi.
Qed.

Lemma ToString_num_inj (n m : Z) : ToString (VNum n) = ToString (VNum m) -> n = m.
Proof.
  intros H. apply DecimalZ.to_int_inj.
  pose proof (numeral_read_back n) as Hn. rewrite H, numeral_read_back in Hn.
  now injection Hn.
Qed.

Lemma digits_no_slash (d : Decimal.uint) : no_slash (NilEmpty.string_of_uint d) = true.
Proof. induction d; simpl; auto. Qed.

Lemma numeral_no_slash (n : Z) : no_slash (ToString (VNum n)) = true.
Proof.
  simpl ToString. destruct (Z.to_int n) as [d | d]; simpl;
    destruct d; try reflexivity; apply digits_no_slash.
Qed.

(** ** What every method has in common *)

(** Every address starts with /project/, the project key as it renders,
    and a slash. *)
Theorem address_rooted_at_project :
  forall (Parameter_format : Value -> Completion Value)
         (i : Invocation) (obs : Observable),
    invoke Parameter_format i = inr obs ->
    exists rest : string,
      url (request obs) = "/project/" ++ ToString (project_key i) ++ String "/" rest.
Proof.
  intros fmt i obs H.
  destruct i; simpl invoke in H; returned H; simpl project_key;
    try (unfold importPipeline; destruct (ToBoolean pipName));
    eexists; simpl; unfold plus; repeat rewrite append_assoc; simpl; reflexivity.
Qed.

Lemma address_rooted_at_project_witness :
  exists rest : string,
    url (request (moveStage "PRJ" "P" (VObj [("id", VNum 4)])))
    = "/project/" ++ "PRJ" ++ String "/" rest.
Proof.
  exact (address_rooted_at_project ParameterModel.format
           (MoveStage "PRJ" "P" (VObj [("id", VNum 4)])) _ eq_refl).
Defined.

(** Query parameters go out with getPipeline, importPipeline,
    getPipelineExport and previewPipelineImport and with no other method,
    and getPipelineExport alone asks for a text response. *)
Theorem query_and_response_type :
  forall (Parameter_format : Value -> Completion Value)
         (i : Invocation) (obs : Observable),
    invoke Parameter_format i = inr obs ->
    (params (request obs) = [] <-> sends_query i = false)
    /\ (responseType (request obs) = text
        <-> exists key pipName, i = GetPipelineExport key pipName).
Proof.
  intros fmt i obs H.
  destruct i; simpl invoke in H; returned H; simpl sends_query;
    try (unfold importPipeline; destruct (ToBoolean pipName));
    simpl; (split; split);
    try reflexivity;
    try (intros Hx; discriminate Hx);
    try (intros [k [p Hi]]; discriminate Hi).
  all: intros _; now exists key, pipName.
Qed.

Lemma query_and_response_type_witness :
  let r := request (createPipeline "PRJ" (VObj [("name", VStr "P")])) in
  (params r = [] <-> false = false)
  /\ (responseType r = text
      <-> exists key pipName,
          CreatePipeline "PRJ" (VObj [("name", VStr "P")]) = GetPipelineExport key pipName).
Proof.
  exact (query_and_response_type ParameterModel.format
           (CreatePipeline "PRJ" (VObj [("name", VStr "P")])) _ eq_refl).
Defined.

(** deletePipeline is the only method that touches the response: every
    other method hands the subscriber the decoded body of a success
    response as it is, and the failure otherwise. *)
Theorem only_deletePipeline_reshapes :
  forall (Parameter_format : Value -> Completion Value)
         (JSON_parse : string -> option Value)
         (i : Invocation) (obs : Observable),
    invoke Parameter_format i = inr obs ->
    (forall key pipName, i <> DeletePipeline key pipName) ->
    (forall v, project obs v = v)
    /\ (forall status raw,
           receive JSON_parse obs status raw
           = if ok status then decode JSON_parse (responseType (request obs)) status raw
             else inl (ServerError status raw)).
Proof.
  intros fmt parse i obs H Hnot.
  assert (Hid : forall v, project obs v = v).
  { destruct i; simpl invoke in H; returned H;
      try (unfold importPipeline; destruct (ToBoolean pipName));
      try reflexivity.
    all: exfalso; now apply (Hnot key pipName). }
  split; [exact Hid |].
  intros status raw. unfold receive.
  destruct (ok status); [| reflexivity].
  destruct (decode parse (responseType (request obs)) status raw); [reflexivity |].
  now rewrite Hid.
Qed.

Lemma only_deletePipeline_reshapes_witness :
  let obs := insertStage "PRJ" "P" (VObj [("name", VStr "build")]) in
  (forall v, project obs v = v)
  /\ (forall status raw,
         receive parse_empty_object obs status raw
         = if ok status
           then decode parse_empty_object (responseType (request obs)) status raw
           else inl (ServerError status raw)).
Proof.
  apply (only_deletePipeline_reshapes ParameterModel.format parse_empty_object
           (InsertStage "PRJ" "P" (VObj [("name", VStr "build")])) _ eq_refl).
  discriminate.
Defined.

(** deletePipeline reports true for a success response only: when the
    subscriber gets a value, the status was 2xx, the response was a 204
    (whose body is not read) or its body was empty or JSON, and the value
    is true; any other status arrives as the server's failure. *)
Theorem deletePipeline_true_only_on_success :
  forall (JSON_parse : string -> option Value) (key pipName : Value)
         (status : Z) (raw : string),
    (forall v,
        receive JSON_parse (deletePipeline key pipName) status raw = inr v ->
        v = VBool true
        /\ (200 <= status < 300)%Z
        /\ (status = 204%Z \/ raw = EmptyString \/ exists w, JSON_parse raw = Some w))
    /\ (~ (200 <= status < 300)%Z ->
        receive JSON_parse (deletePipeline key pipName) status raw
        = inl (ServerError status raw)).
Proof.
  intros parse key pipName status raw. unfold receive, decode, ok. simpl responseType.
  destruct (200 <=? status)%Z eqn:Hlo; destruct (status <? 300)%Z eqn:Hhi; simpl;
    try apply Z.leb_le in Hlo; try apply Z.ltb_lt in Hhi;
    try apply Z.leb_gt in Hlo; try apply Z.ltb_ge in Hhi;
    (split; [intros v Hv | intros Hst]);
    try discriminate; try reflexivity; try lia.
  destruct (Z.eqb_spec status 204) as [H204 | H204].
  - injection Hv as <-. repeat split; try lia.
  - destruct (String.eqb_spec raw EmptyString) as [-> | Hraw].
    + injection Hv as <-. repeat split; try lia. right. now left.
    + destruct (parse raw) as [w |] eqn:Hp; [| discriminate].
      injection Hv as <-. repeat split; try lia. right. right. now exists w.
Qed.

Lemma deletePipeline_true_only_on_success_witness :
  (forall v,
      receive parse_empty_object (deletePipeline "PRJ" "P") 204 EmptyString = inr v ->
      v = VBool true
      /\ (200 <= 204 < 300)%Z
      /\ (204%Z = 204%Z \/ EmptyString = EmptyString
          \/ exists w, parse_empty_object EmptyString = Some w))
  /\ receive parse_empty_object (deletePipeline "PRJ" "P") 404 "not found"
     = inl (ServerError 404 "not found").
Proof.
  split.
  - exact (proj1 (deletePipeline_true_only_on_success parse_empty_object
                    "PRJ" "P" 204 EmptyString)).
  - apply (proj2 (deletePipeline_true_only_on_success parse_empty_object
                    "PRJ" "P" 404 "not found")).
    lia.
Defined.

(** ** One address per resource *)

(** A pipeline is read, updated and deleted at one address, built from
    the name given and not from the pipeline sent: an update that renames
    goes to the old name.  Creation goes to the address the list is read
    from, and the applications of a pipeline are read below it. *)
Theorem pipeline_resource_address :
  forall (key name : Value) (fields : list (string * Value)),
    let pipeline := VObj fields in
    let u := url (request (getPipeline key name)) in
    request (updatePipeline key name pipeline)
    = mkRequest PUT u (Some pipeline) [] [] json
    /\ request (deletePipeline key name) = mkRequest DELETE u None [] [] json
    /\ url (request (getApplications key name)) = u ++ "/application"
    /\ request (createPipeline key pipeline)
       = mkRequest POST (url (request (getPipelines key))) (Some pipeline) [] [] json
    /\ u = url (request (getPipelines key)) ++ "/" ++ ToString name.
Proof.
  intros key name fields pipeline u. subst pipeline u.
  repeat match goal with |- _ /\ _ => split end; try reflexivity; address.
Qed.

(** A stage is updated and deleted at the address stages are inserted at
    followed by its id; moving uses that address followed by "move"; the
    jobs of the stage are added below the stage's own address. *)
Theorem stage_resource_address :
  forall (key pipName stage id job : Value),
    get stage "id" = inr id ->
    let stages := url (request (insertStage key pipName stage)) in
    let u := stages ++ "/" ++ ToString id in
    updateStage key pipName stage = inr (http_put u stage no_options)
    /\ deleteStage key pipName stage = inr (http_delete u no_options)
    /\ request (moveStage key pipName stage)
       = mkRequest POST (stages ++ "/move") (Some stage) [] [] json
    /\ request (addJob key pipName id job)
       = mkRequest POST (u ++ "/job") (Some job) [] [] json.
Proof.
  intros key pipName stage id job Hid stages u. subst stages u.
  unfold updateStage, deleteStage. rewrite Hid. simpl bind. unfold ret.
  repeat match goal with |- _ /\ _ => split end.
  - do 2 f_equal. address.
  - do 2 f_equal. address.
  - unfold moveStage, http_post, send. simpl request. f_equal. address.
  - unfold addJob, http_post, send. simpl request. f_equal. address.
Qed.

Lemma stage_resource_address_witness :
  updateStage "PRJ" "P" (VObj [("id", VNum 7)])
  = inr (http_put "/project/PRJ/pipeline/P/stage/7" (VObj [("id", VNum 7)]) no_options)
  /\ deleteStage "PRJ" "P" (VObj [("id", VNum 7)])
     = inr (http_delete "/project/PRJ/pipeline/P/stage/7" no_options)
  /\ request (moveStage "PRJ" "P" (VObj [("id", VNum 7)]))
     = mkRequest POST "/project/PRJ/pipeline/P/stage/move"
         (Some (VObj [("id", VNum 7)])) [] [] json
  /\ request (addJob "PRJ" "P" (VNum 7) (VObj []))
     = mkRequest POST "/project/PRJ/pipeline/P/stage/7/job" (Some (VObj [])) [] [] json.
Proof.
  exact (stage_resource_address "PRJ" "P" (VObj [("id", VNum 7)]) (VNum 7) (VObj [])
           eq_refl).
Defined.

(** A job is updated and removed at one address; the update sends the
    job, the removal nothing. *)
Theorem job_resource_address :
  forall (key pipName stageID job : Value) (obs : Observable),
    updateJob key pipName stageID job = inr obs ->
    removeJob key pipName stageID job
    = inr (http_delete (url (request obs)) no_options)
    /\ obs = http_put (url (request obs)) job no_options.
Proof.
  intros key pipName stageID job obs H.
  unfold updateJob in H. unfold removeJob.
  destruct (get job "pipeline_action_id") as [e | id]; simpl in H; [discriminate |].
  injection H as <-. split; reflexivity.
Qed.

Lemma job_resource_address_witness :
  removeJob "PRJ" "P" (VNum 7) (VObj [("pipeline_action_id", VNum 3)])
  = inr (http_delete "/project/PRJ/pipeline/P/stage/7/job/3" no_options)
  /\ http_put "/project/PRJ/pipeline/P/stage/7/job/3"
       (VObj [("pipeline_action_id", VNum 3)]) no_options
     = http_put "/project/PRJ/pipeline/P/stage/7/job/3"
         (VObj [("pipeline_action_id", VNum 3)]) no_options.
Proof.
  exact (job_resource_address "PRJ" "P" (VNum 7) (VObj [("pipeline_action_id", VNum 3)])
           _ eq_refl).
Defined.

(** A parameter that is not being renamed is added, updated and removed
    at one address.  One that is being renamed is updated at the address
    where the parameter of the old name would be removed. *)
Theorem parameter_resource_address :
  forall (Parameter_format : Value -> Completion Value)
         (key pipName : string) (fields : list (string * Value)) (formatted : Value),
    let param := VObj fields in
    Parameter_format param = inr formatted ->
    (ToBoolean (own fields "previousName") = false ->
     exists u,
       addParameter key pipName param = inr (http_post u param no_options)
       /\ updateParameter Parameter_format key pipName param
          = inr (http_put u formatted no_options)
       /\ removeParameter key pipName param = inr (http_delete u no_options))
    /\ (forall old : string,
           own fields "previousName" = VStr old -> old <> EmptyString ->
           exists u,
             updateParameter Parameter_format key pipName param
             = inr (http_put u formatted no_options)
             /\ removeParameter key pipName (VObj [("name", VStr old)])
                = inr (http_delete u no_options)).
Proof.
  intros fmt key pipName fields formatted param Hfmt. subst param.
  pose proof (updateParameter_address fmt key pipName fields) as Hup.
  rewrite Hfmt in Hup. simpl bind in Hup. unfold or_else in Hup.
  split.
  - intros Hprev. rewrite Hprev in Hup. eexists.
    split; [| split; [exact Hup |]];
      unfold addParameter, removeParameter; simpl; unfold ret; do 2 f_equal; address.
  - intros old Hold Hne. rewrite Hold in Hup.
    apply ToBoolean_string in Hne. rewrite Hne in Hup. eexists.
    split; [exact Hup |].
    unfold removeParameter; simpl; unfold ret; do 2 f_equal; address.
Qed.

Lemma parameter_resource_address_witness :
  (exists u,
      addParameter "PRJ" "P" (VObj [("name", VStr "FOO")])
      = inr (http_post u (VObj [("name", VStr "FOO")]) no_options)
      /\ updateParameter ParameterModel.format "PRJ" "P" (VObj [("name", VStr "FOO")])
         = inr (http_put u (VObj [("name", VStr "FOO")]) no_options)
      /\ removeParameter "PRJ" "P" (VObj [("name", VStr "FOO")])
         = inr (http_delete u no_options))
  /\ (exists u,
         updateParameter ParameterModel.format "PRJ" "P"
           (VObj [("name", VStr "new"); ("previousName", VStr "old")])
         = inr (http_put u
                  (VObj [("name", VStr "new"); ("previousName", VStr "old")]) no_options)
         /\ removeParameter "PRJ" "P" (VObj [("name", VStr "old")])
            = inr (http_delete u no_options)).
Proof.
  split.
  - apply (proj1 (parameter_resource_address ParameterModel.format "PRJ" "P"
                    [("name", VStr "FOO")] _ eq_refl)).
    reflexivity.
  - apply (proj2 (parameter_resource_address ParameterModel.format "PRJ" "P"
                    [("name", VStr "new"); ("previousName", VStr "old")] _ eq_refl)
             "old"); [reflexivity | discriminate].
Defined.

(** ** Names are written into addresses as they are *)

(** No method escapes a component.  A pipeline name that contains
    "/stage/" and an id therefore reaches the stage: deleting the
    pipeline so named sends exactly the request that deletes that stage
    of the pipeline named by the part before.  *)
Theorem address_not_escaped :
  forall (key pipName stage id : Value),
    get stage "id" = inr id ->
    exists obs,
      deleteStage key pipName stage = inr obs
      /\ request (deletePipeline key (VStr (ToString pipName ++ "/stage/" ++ ToString id)))
         = request obs.
Proof.
  intros key pipName stage id Hid. unfold deleteStage. rewrite Hid. simpl bind.
  eexists. split; [reflexivity |].
  unfold deletePipeline, pipe_map, http_delete, send. simpl request. f_equal. address.
Qed.

Lemma address_not_escaped_witness :
  exists obs,
    deleteStage "PRJ" "P" (VObj [("id", VNum 7)]) = inr obs
    /\ request (deletePipeline "PRJ" (VStr ("P" ++ "/stage/" ++ "7"))) = request obs.
Proof.
  exact (address_not_escaped "PRJ" "P" (VObj [("id", VNum 7)]) (VNum 7) eq_refl).
Defined.

(** When the project key has no slash, the address of getPipeline tells
    the key and the pipeline name apart; with a slash in the key it need
    not. *)
Theorem pipeline_address_injective :
  forall key key' pipName pipName' : string,
    no_slash key = true -> no_slash key' = true ->
    url (request (getPipeline key pipName)) = url (request (getPipeline key' pipName')) ->
    key = key' /\ pipName = pipName'.
Proof.
  intros key key' pipName pipName' Hk Hk' H.
  assert (Hu : forall k p : string,
             url (request (getPipeline k p)) = "/project/" ++ k ++ "/pipeline/" ++ p)
    by (intros; address).
  rewrite !Hu in H. apply append_inv_head in H.
  apply (split_at_slash key key' _ _ Hk Hk') in H as [Hkey H].
  split; [exact Hkey |].
  now apply (append_inv_head "pipeline/") in H.
Qed.

Lemma pipeline_address_injective_witness :
  "PRJ" = "PRJ" /\ "P" = "P".
Proof.
  exact (pipeline_address_injective "PRJ" "PRJ" "P" "P" eq_refl eq_refl eq_refl).
Defined.

Example pipeline_address_ambiguous_with_slash :
  url (request (getPipeline "A/pipeline/B" "C"))
  = url (request (getPipeline "A" "B/pipeline/C")).
Proof. reflexivity. Qed.

(** With a project key and a pipeline name free of slashes and integer
    ids, the address of updateJob determines the project, the pipeline,
    the stage and the job: two different jobs never share an address. *)
Theorem job_address_injective :
  forall (key key' pipName pipName' : string) (stageID stageID' actionId actionId' : Z)
         (job job' : Value) (obs obs' : Observable),
    no_slash key = true -> no_slash key' = true ->
    no_slash pipName = true -> no_slash pipName' = true ->
    get job "pipeline_action_id" = inr (VNum actionId) ->
    get job' "pipeline_action_id" = inr (VNum actionId') ->
    updateJob key pipName (VNum stageID) job = inr obs ->
    updateJob key' pipName' (VNum stageID') job' = inr obs' ->
    url (request obs) = url (request obs') ->
    key = key' /\ pipName = pipName' /\ stageID = stageID' /\ actionId = actionId'.
Proof.
  intros key key' pipName pipName' stageID stageID' actionId actionId'
         job job' obs obs' Hk Hk' Hp Hp' Hid Hid' Hobs Hobs' H.
  unfold updateJob in Hobs, Hobs'. rewrite Hid in Hobs. rewrite Hid' in Hobs'.
  simpl bind in Hobs, Hobs'. injection Hobs as <-. injection Hobs' as <-.
  assert (Hu : forall (k p : string) (s a : Z) (j : Value),
             url (request (http_put
                             ("/project/" +' VStr k +' VStr "/pipeline/" +' VStr p
                                +' VStr "/stage/" +' VNum s +' VStr "/job/" +' VNum a)
                             j no_options))
             = "/project/" ++ k ++ "/pipeline/" ++ p ++ "/stage/"
                 ++ ToString (VNum s) ++ "/job/" ++ ToString (VNum a)).
  { intros. unfold http_put, send. cbn [url request]. unfold plus.
    cbn [ToString]. now repeat rewrite append_assoc. }
  rewrite !Hu in H. apply append_inv_head in H.
  apply (split_at_slash key key' _ _ Hk Hk') in H as [Hkey H].
  apply (append_inv_head "pipeline/") in H.
  apply (split_at_slash pipName pipName' _ _ Hp Hp') in H as [Hpip H].
  apply (append_inv_head "stage/") in H.
  apply (split_at_slash _ _ _ _ (numeral_no_slash stageID) (numeral_no_slash stageID'))
    in H as [Hstage H].
  apply (append_inv_head "job/") in H.
  repeat split; auto using ToString_num_inj.
Qed.

Lemma job_address_injective_witness :
  "PRJ" = "PRJ" /\ "P" = "P" /\ 7%Z = 7%Z /\ 3%Z = 3%Z.
Proof.
  exact (job_address_injective "PRJ" "PRJ" "P" "P" 7 7 3 3
           (VObj [("pipeline_action_id", VNum 3)]) (VObj [("pipeline_action_id", VNum 3)])
           _ _ eq_refl eq_refl eq_refl eq_refl eq_refl eq_refl eq_refl eq_refl eq_refl).
Defined.

(** Within one pipeline, stages with different integer ids are updated
    at different addresses, and none of those is the address stages are
    moved at. *)
Theorem stage_address_distinct :
  forall (key pipName stage stage' : Value) (id id' : Z) (obs obs' : Observable),
    get stage "id" = inr (VNum id) ->
    get stage' "id" = inr (VNum id') ->
    updateStage key pipName stage = inr obs ->
    updateStage key pipName stage' = inr obs' ->
    (url (request obs) = url (request obs') -> id = id')
    /\ url (request obs) <> url (request (moveStage key pipName stage)).
Proof.
  intros key pipName stage stage' id id' obs obs' Hid Hid' Hobs Hobs'.
  unfold updateStage in Hobs, Hobs'. rewrite Hid in Hobs. rewrite Hid' in Hobs'.
  simpl bind in Hobs, Hobs'. injection Hobs as <-. injection Hobs' as <-.
  assert (Hu : forall v b : Value,
             url (request (http_put
                             ("/project/" +' key +' VStr "/pipeline/" +' pipName
                                +' VStr "/stage/" +' v) b no_options))
             = "/project/" ++ ToString key ++ "/pipeline/" ++ ToString pipName
                 ++ "/stage/" ++ ToString v).
  { intros. unfold http_put, send. cbn [url request]. unfold plus.
    cbn [ToString]. now repeat rewrite append_assoc. }
  assert (Hm : url (request (moveStage key pipName stage))
               = "/project/" ++ ToString key ++ "/pipeline/" ++ ToString pipName
                   ++ "/stage/" ++ "move").
  { unfold moveStage, http_post, send. cbn [url request]. unfold plus.
    cbn [ToString]. now repeat rewrite append_assoc. }
  rewrite Hm, !Hu. split; intros H.
  - do 5 apply append_inv_head in H. now apply ToString_num_inj.
  - do 5 apply append_inv_head in H.
    pose proof (numeral_read_back id) as Hr.
    rewrite H in Hr. discriminate Hr.
Qed.

Lemma stage_address_distinct_witness :
  (url (request (http_put "/project/PRJ/pipeline/P/stage/7" (VObj [("id", VNum 7)])
                   no_options))
   = url (request (http_put "/project/PRJ/pipeline/P/stage/8" (VObj [("id", VNum 8)])
                     no_options))
   -> 7%Z = 8%Z)
  /\ url (request (http_put "/project/PRJ/pipeline/P/stage/7" (VObj [("id", VNum 7)])
                     no_options))
     <> url (request (moveStage "PRJ" "P" (VObj [("id", VNum 7)]))).
Proof.
  exact (stage_address_distinct "PRJ" "P" (VObj [("id", VNum 7)]) (VObj [("id", VNum 8)])
           7 8 _ _ eq_refl eq_refl eq_refl eq_refl).
Defined.

(** ** Missing identifiers and failing calls *)

(** An object that lacks the identifier a method reads is not refused:
    the word "undefined" takes the identifier's place in the address, so
    all stages without an id share one address, and so do all jobs and
    all parameters without theirs. *)
Theorem missing_identifier_renders_undefined :
  forall (key pipName stageID : Value) (fields : list (string * Value)),
    let pipeline := "/project/" ++ ToString key ++ "/pipeline/" ++ ToString pipName in
    let o := VObj fields in
    (own fields "id" = VUndefined ->
     updateStage key pipName o
     = inr (http_put (pipeline ++ "/stage/undefined") o no_options)
     /\ deleteStage key pipName o
        = inr (http_delete (pipeline ++ "/stage/undefined") no_options))
    /\ (own fields "pipeline_action_id" = VUndefined ->
        updateJob key pipName stageID o
        = inr (http_put (pipeline ++ "/stage/" ++ ToString stageID ++ "/job/undefined")
                 o no_options)
        /\ removeJob key pipName stageID o
           = inr (http_delete
                    (pipeline ++ "/stage/" ++ ToString stageID ++ "/job/undefined")
                    no_options))
    /\ (own fields "name" = VUndefined ->
        addParameter key pipName o
        = inr (http_post (pipeline ++ "/parameter/undefined") o no_options)
        /\ removeParameter key pipName o
           = inr (http_delete (pipeline ++ "/parameter/undefined") no_options)).
Proof.
  intros key pipName stageID fields pipeline o. subst pipeline o.
  unfold updateStage, deleteStage, updateJob, removeJob, addParameter, removeParameter.
  simpl get. unfold ret. simpl bind.
  repeat match goal with |- _ /\ _ => split end;
    intros ->; split; do 2 f_equal; address.
Qed.

Lemma missing_identifier_renders_undefined_witness :
  updateStage "PRJ" "P" (VObj [("name", VStr "build")])
  = inr (http_put "/project/PRJ/pipeline/P/stage/undefined"
           (VObj [("name", VStr "build")]) no_options)
  /\ deleteStage "PRJ" "P" (VObj [("name", VStr "build")])
     = inr (http_delete "/project/PRJ/pipeline/P/stage/undefined" no_options).
Proof.
  apply (proj1 (missing_identifier_renders_undefined "PRJ" "P" VUndefined
                  [("name", VStr "build")])).
  reflexivity.
Defined.

(** updateParameter builds no request when it cannot: on a parameter
    that is null or undefined it throws the TypeError of reading
    previousName, whatever [Parameter.format] would do, and on any other
    parameter an error thrown by [Parameter.format] is the error of the
    call. *)
Theorem updateParameter_failures :
  forall (Parameter_format : Value -> Completion Value) (key pipName param : Value),
    (nullish param = true ->
     updateParameter Parameter_format key pipName param
     = inl (TypeError "previousName"))
    /\ (forall e,
           nullish param = false ->
           Parameter_format param = inl e ->
           updateParameter Parameter_format key pipName param = inl e).
Proof.
  intros fmt key pipName param. unfold updateParameter. split.
  - destruct param; simpl; intros H; try discriminate H; reflexivity.
  - intros e Hn Hfmt.
    destruct param; simpl in Hn; try discriminate Hn; simpl get; simpl bind at 1;
      try (rewrite Hfmt; reflexivity).
    destruct (ToBoolean (own fields "previousName")); simpl bind at 1;
      rewrite Hfmt; reflexivity.
Qed.

Lemma updateParameter_failures_witness :
  updateParameter ParameterModel.format "PRJ" "P" VNull = inl (TypeError "previousName")
  /\ updateParameter (fun _ => inl (TypeError "toString")) "PRJ" "P"
       (VObj [("name", VStr "FOO")])
     = inl (TypeError "toString").
Proof.
  split.
  - apply (proj1 (updateParameter_failures ParameterModel.format "PRJ" "P" VNull)).
    reflexivity.
  - apply (proj2 (updateParameter_failures (fun _ => inl (TypeError "toString"))
                    "PRJ" "P" (VObj [("name", VStr "FOO")]))
             (TypeError "toString")); reflexivity.
Defined.
